(** * next-result: the Result utilities of [src/index.ts]

    A shallow embedding of the ten exported functions over a small universe
    of JavaScript values.  TypeScript types are erased at run time, so a
    [Result<T>] is an ordinary object whose own data properties are looked
    up by name; the declared types reappear below as predicates on such
    objects. *)

From stdpp Require Import gmap strings pretty.

Set Warnings "-register-all".

Open Scope string_scope.

(** ** JavaScript values *)

(** What a [then] method does with the two callbacks [(resolve, reject)]
    it is handed: it calls the first with a value, or the second with a
    reason (throwing the reason comes to the same), or neither. *)
Inductive reaction (A : Type) : Type :=
| Resolves (a : A)
| Rejects (reason : A)
| Hangs.
Arguments Resolves {A} a.
Arguments Rejects {A} reason.
Arguments Hangs {A}.

(** Primitives, plain objects and thenables.  [VNum] stands for the
    integral Numbers; a plain object is the finite map of its own data
    properties, none of which can be called.  A thenable is an object
    whose [then] can be called, be it a promise or any other object with
    such a method: [calls] is what that [then] does, [props] are the
    object's own data properties. *)
Inductive value : Type :=
| VUndefined
| VNull
| VBool (b : bool)
| VNum (n : Z)
| VStr (s : string)
| VObj (props : gmap string value)
| VThenable (calls : reaction value) (props : gmap string value).

Abbreviation object := (gmap string value).

(** [o.k]: reading a property that the object does not have yields
    [undefined]. *)
Definition get (o : object) (k : string) : value :=
  default VUndefined (o !! k).

(** ToBoolean, as applied by [!] and by the condition of [? :] and [if]. *)
Definition truthy (v : value) : bool :=
  match v with
  | VUndefined | VNull => false
  | VBool b => b
  | VNum n => negb (n =? 0)%Z
  | VStr s => negb (String.eqb s "")
  | VObj _ | VThenable _ _ => true
  end.

(** Whether resolving a promise with [v] adopts [v]. *)
Definition thenable (v : value) : bool :=
  match v with
  | VThenable _ _ => true
  | _ => false
  end.

(** ToString.  It is the identity on strings, the one case the declared
    type [error: string] lets [unwrap] meet, and exact on [undefined],
    [null], the booleans and the integers below 10^21 in magnitude.  An
    object is printed as [Object.prototype.toString] prints it, which is
    what happens as long as the object brings no [toString] of its own;
    nothing below is stated about the message made of a number or of an
    object. *)
Definition ToString (v : value) : string :=
  match v with
  | VUndefined => "undefined"
  | VNull => "null"
  | VBool true => "true"
  | VBool false => "false"
  | VNum n => pretty n
  | VStr s => s
  | VObj _ | VThenable _ _ => "[object Object]"
  end.

(** [new Error(message)]: the instance gets an own [message] property
    holding [ToString(message)], unless the argument is [undefined]. *)
Definition new_Error (message : value) : object :=
  match message with
  | VUndefined => ∅
  | _ => {[ "message" := VStr (ToString message) ]}
  end.

(** ** Completions *)

(** The outcome of running a function body: it returns, or it throws. *)
Inductive completion (A : Type) : Type :=
| Return (a : A)
| Throw (e : value).
Arguments Return {A} a.
Arguments Throw {A} e.

Definition bind {A B} (c : completion A) (k : A -> completion B) : completion B :=
  match c with
  | Return a => k a
  | Throw e => Throw e
  end.

Notation "'let*' x ':=' c 'in' k" := (bind c (fun x => k))
  (at level 10, x name, c at level 100, k at level 200, only parsing).

(** A call [f(a0, a1, ...)] of a function that declares one parameter binds
    it to [a0]; the surplus actual arguments are evaluated and dropped. *)
Definition call1 {A B} (f : A -> B) (a0 : A) (surplus : list value) : B := f a0.

(** ** The library *)

(** [export const Ok = <T>(value: T): Result<T> => ({ ok: true, value })] *)
Definition Ok (value : value) : object :=
  {[ "ok" := VBool true; "value" := value ]}.

(** [export const Err = (error: string): Result<never> => ({ ok: false, error })] *)
Definition Err (error : string) : object :=
  {[ "ok" := VBool false; "error" := VStr error ]}.

(** [isOk = (result) => result.ok] *)
Definition isOk (result : object) : value := get result "ok".

(** [optionOk = (result) => isOk(result) ? result.value : null] *)
Definition optionOk (result : object) : completion value :=
  Return (if truthy (isOk result) then get result "value" else VNull).

(** [isErr = (result) => !result.ok] *)
Definition isErr (result : object) : value :=
  VBool (negb (truthy (get result "ok"))).

(** [optionErr = (result) => isErr(result) ? result.error : null] *)
Definition optionErr (result : object) : completion value :=
  Return (if truthy (isErr result) then get result "error" else VNull).

(** [unwrap]: [if (isOk(result)) { return result.value; }
              throw new Error(result.error);] *)
Definition unwrap (result : object) : completion value :=
  if truthy (isOk result) then Return (get result "value")
  else Throw (VObj (new_Error (get result "error"))).

(** [unwrapOrDefault]: [if (isOk(result)) { return result.value; }
                       return defaultValue;] *)
Definition unwrapOrDefault (result : object) (defaultValue : value) : completion value :=
  if truthy (isOk result) then Return (get result "value")
  else Return defaultValue.

(** ** The declared types, as predicates on objects *)

(** [type Result<T> = Ok<T> | Err] with [T] unconstrained: the tag is the
    boolean [ok]; a success has a [value], a failure a string [error].
    Further properties are allowed, as in any structural type. *)
Inductive Result : object -> Prop :=
| Result_Ok (r : object) (v : value) :
    r !! "ok" = Some (VBool true) -> r !! "value" = Some v -> Result r
| Result_Err (r : object) (m : string) :
    r !! "ok" = Some (VBool false) -> r !! "error" = Some (VStr m) -> Result r.

Definition tag_success (r : object) : Prop := r !! "ok" = Some (VBool true).
Definition tag_failure (r : object) : Prop := r !! "ok" = Some (VBool false).

(** ** Promises and async functions *)

(** A promise, seen through what [await] will find: it is fulfilled with a
    value, rejected with a reason, or never settles. *)
Inductive promise (A : Type) : Type :=
| Fulfilled (a : A)
| Rejected (reason : value)
| Unsettled.
Arguments Fulfilled {A} a.
Arguments Rejected {A} reason.
Arguments Unsettled {A}.

(** Resolving a promise with a value of type [A]: what the promise of an
    async function becomes when the body returns that value. *)
Class Resolvable (A : Type) : Type := resolve : A -> promise A.

(** A value that is not a thenable fulfils the promise.  A thenable is
    adopted: its [then] is called with the resolving functions of the
    promise, so a reason it rejects with rejects the promise, a value it
    resolves with is resolved in turn, and the promise stays pending if it
    calls neither. *)
Fixpoint adopt (v : value) : promise value :=
  match v with
  | VThenable calls _ =>
      match calls with
      | Resolves a => adopt a
      | Rejects reason => Rejected reason
      | Hangs => Unsettled
      end
  | _ => Fulfilled v
  end.

#[global] Instance value_resolvable : Resolvable value := adopt.

(** A plain object has no [then] that can be called: it fulfils. *)
#[global] Instance object_resolvable : Resolvable object := Fulfilled.

(** The body of an async function from the point the caller gets control
    back: it has finished, or it is suspended at an [await] with the rest
    of the body as continuation.  The continuation receives the awaited
    value, or the rejection reason re-thrown at the [await]. *)
Inductive async (A : Type) : Type :=
| Finish (c : completion A)
| Await (p : promise object) (k : completion object -> async A).
Arguments Finish {A} c.
Arguments Await {A} p k.

(** [const x = await p; rest]: there is no [try] around either [await] of
    the library, so a rejection ends the body with that reason thrown. *)
Definition await {A} (p : promise object) (rest : object -> async A) : async A :=
  Await p (fun c => match c with
                    | Return x => rest x
                    | Throw e => Finish (Throw e)
                    end).

(** The promise an async function hands to its caller: resolved with the
    returned value, rejected with the thrown one. *)
Fixpoint settle {A} `{Resolvable A} (body : async A) : promise A :=
  match body with
  | Finish (Return a) => resolve a
  | Finish (Throw e) => Rejected e
  | Await p k =>
      match p with
      | Fulfilled x => settle (k (Return x))
      | Rejected e => settle (k (Throw e))
      | Unsettled => Unsettled
      end
  end.

Section Async.

(** Whatever a caller-supplied function can read and change. *)
Variable World : Type.

(** A zero-argument function [() => Promise<Result<T>>]: it runs
    synchronously in the current world, and returns a promise or
    throws. *)
Definition thunk : Type := World -> completion (promise object) * World.

(** [(() => Promise<Result<T>>) | Promise<Result<T>>], told apart by
    [typeof fn === "function"]. *)
Inductive source : Type :=
| Function (fn : thunk)
| Promise (fn : promise object).

(** [unwrapPromise]:
    [const result = await (typeof fn === "function" ? fn() : fn);
     const value = unwrap(result);
     return value;]
    The world paired with the suspended body is the one the caller sees
    when the call returns. *)
Definition unwrapPromise (fn : source) (w : World) : async value * World :=
  let '(operand, w') :=
    match fn with
    | Function fn => fn w
    | Promise fn => (Return fn, w)
    end in
  (match operand with
   | Throw e => Finish (Throw e)
   | Return p =>
       await p (fun result =>
         Finish (let* value := unwrap result in Return value))
   end, w').

(** [unwrapPromiseOrDefault]:
    [const result = await (typeof fn === "function" ? fn() : fn);
     return unwrapOrDefault(result, defaultValue);] *)
Definition unwrapPromiseOrDefault (fn : source) (defaultValue : value) (w : World)
  : async value * World :=
  let '(operand, w') :=
    match fn with
    | Function fn => fn w
    | Promise fn => (Return fn, w)
    end in
  (match operand with
   | Throw e => Finish (Throw e)
   | Return p =>
       await p (fun result => Finish (unwrapOrDefault result defaultValue))
   end, w').

(** The source yields the promise [p]: it is [p], or it is a function
    whose call in world [w] returns [p] and leaves world [w']. *)
Definition yields (fn : source) (w : World) (p : promise object) (w' : World) : Prop :=
  match fn with
  | Function fn => fn w = (Return p, w')
  | Promise fn => fn = p /\ w' = w
  end.

End Async.

Arguments Function {World} fn.
Arguments Promise {World} fn.
Arguments unwrapPromise {World} fn w.
Arguments unwrapPromiseOrDefault {World} fn defaultValue w.
Arguments yields {World} fn w p w'.

(** A completion, as the promise an async function makes of it. *)
Definition promise_of {A} `{Resolvable A} (c : completion A) : promise A :=
  match c with
  | Return a => resolve a
  | Throw e => Rejected e
  end.

(** ** Sample values *)

(** [Promise.reject(reason)], [Promise.resolve(v)] and
    [new Promise(() => {})] as values. *)
Definition Promise_reject (reason : value) : value := VThenable (Rejects reason) ∅.
Definition Promise_resolve (v : value) : value := VThenable (Resolves v) ∅.
Definition Promise_pending : value := VThenable Hangs ∅.

(** A failure that carries a code next to its message, as an object
    literal: [{ ok: false, error: "Cannot divide by zero",
                code: "DIVISION_BY_ZERO" }]. *)
Definition division_by_zero : object :=
  {[ "ok" := VBool false; "error" := VStr "Cannot divide by zero";
     "code" := VStr "DIVISION_BY_ZERO" ]}.

(** An async function that counts its calls in the world and returns the
    promise [p]: [async () => { calls++; ... }]. *)
Definition counting (p : promise object) : thunk nat :=
  fun calls => (Return p, S calls).

(** A function that counts its call and then throws [e] instead of
    returning a promise: [() => { calls++; throw e; }]. *)
Definition failing (e : value) : thunk nat :=
  fun calls => (Throw e, S calls).

(** Objects that carry a tag and nothing else, as untyped input (parsed
    JSON, say) can: [{ ok: true }] and [{ ok: false }]. *)
Definition bare_success : object := {[ "ok" := VBool true ]}.
Definition bare_failure : object := {[ "ok" := VBool false ]}.

(** ** A caller: [fetchUser] of the test suite *)

(** [{ id: "1", name: "John" }] *)
Definition john : object := {[ "id" := VStr "1"; "name" := VStr "John" ]}.

(** [src/index.test.ts], "should handle async operations":
    [async function fetchUser(id: string) {
       if (id === "1") { return Ok({ id: "1", name: "John" }); }
       return Err("User not found", "USER_NOT_FOUND");
     }]
    The body has no [await]; a call [fetchUser(id)] is the promise
    [settle (fetchUser id)]. *)
Definition fetchUser (id : string) : async object :=
  if String.eqb id "1" then Finish (Return (Ok (VObj john)))
  else Finish (Return (call1 Err "User not found" [VStr "USER_NOT_FOUND"])).

(** * Properties *)

(** ** Reading the fields of constructed and of typed results *)

Lemma get_lookup (o : object) (k : string) (v : value) :
  o !! k = Some v -> get o k = v.
Proof. intros H. unfold get. by rewrite H. Qed.

Lemma Ok_tag (v : value) : tag_success (Ok v).
Proof. reflexivity. Qed.

Lemma Err_tag (m : string) : tag_failure (Err m).
Proof. reflexivity. Qed.

Lemma Ok_Result (v : value) : Result (Ok v).
Proof. by apply (Result_Ok _ v). Qed.

Lemma Err_Result (m : string) : Result (Err m).
Proof. by apply (Result_Err _ m). Qed.

Lemma isOk_success (r : object) : tag_success r -> isOk r = VBool true.
Proof. intros H. by apply get_lookup. Qed.

Lemma isOk_failure (r : object) : tag_failure r -> isOk r = VBool false.
Proof. intros H. by apply get_lookup. Qed.

Lemma isErr_success (r : object) : tag_success r -> isErr r = VBool false.
Proof. intros H. unfold isErr. by rewrite (get_lookup _ _ _ H). Qed.

Lemma isErr_failure (r : object) : tag_failure r -> isErr r = VBool true.
Proof. intros H. unfold isErr. by rewrite (get_lookup _ _ _ H). Qed.

(** The tag of a typed result is one of the two booleans. *)
Lemma Result_tag (r : object) : Result r -> {tag_success r} + {tag_failure r}.
Proof.
  intros H. unfold tag_success, tag_failure.
  destruct (r !! "ok") as [[| |[|]| | | |]|] eqn:E; try (exfalso; destruct H; congruence).
  - by left.
  - by right.
Qed.

Lemma tags_exclusive (r : object) : tag_success r -> tag_failure r -> False.
Proof. unfold tag_success, tag_failure. congruence. Qed.

(** ** The synchronous extractors, by tag *)

Lemma unwrap_success (r : object) :
  tag_success r -> unwrap r = Return (get r "value").
Proof. intros H. unfold unwrap. by rewrite isOk_success. Qed.

Lemma unwrap_failure (r : object) (m : string) :
  tag_failure r -> r !! "error" = Some (VStr m) ->
  unwrap r = Throw (VObj {[ "message" := VStr m ]}).
Proof.
  intros H E. unfold unwrap. rewrite isOk_failure by done.
  by rewrite (get_lookup _ _ _ E).
Qed.

Lemma unwrapOrDefault_success (r : object) (d : value) :
  tag_success r -> unwrapOrDefault r d = Return (get r "value").
Proof. intros H. unfold unwrapOrDefault. by rewrite isOk_success. Qed.

Lemma unwrapOrDefault_failure (r : object) (d : value) :
  tag_failure r -> unwrapOrDefault r d = Return d.
Proof. intros H. unfold unwrapOrDefault. by rewrite isOk_failure. Qed.

(** ** The constructors *)

(** C1, at the input of the repository's own test ("should include an
    error code when provided"): [Err("error message", "NOT_FOUND")] keeps
    the message, but the second argument is not stored; reading [.code]
    yields [undefined], and the object differs from the expected
    [{ ok: false, error: "error message", code: "NOT_FOUND" }]. *)
Theorem Err_code_argument_lost :
  let r := call1 Err "error message" [VStr "NOT_FOUND"] in
  get r "error" = VStr "error message"
  /\ get r "code" = VUndefined
  /\ r <> {[ "ok" := VBool false; "error" := VStr "error message";
             "code" := VStr "NOT_FOUND" ]}.
Proof.
  cbv zeta. repeat split.
  intros H. apply (f_equal (fun o : object => o !! "code")) in H.
  vm_compute in H. discriminate H.
Qed.

(** C9: whatever message and whatever further arguments [Err] is called
    with, the object it builds has exactly the two fields [ok: false] and
    [error: m]; it has no [code] field. *)
Theorem Err_exactly_ok_and_error (m : string) (surplus : list value) :
  call1 Err m surplus = {[ "ok" := VBool false; "error" := VStr m ]}
  /\ dom (call1 Err m surplus) = ({[ "ok"; "error" ]} : gset string)
  /\ call1 Err m surplus !! "code" = None.
Proof.
  unfold call1, Err. split; [reflexivity|]. split.
  - rewrite dom_insert_L, dom_singleton_L. reflexivity.
  - reflexivity.
Qed.

(** ** The predicates *)

(** C5: on every Result, [isOk] is true exactly when the tag is success,
    [isErr] is true exactly when the tag is failure, and the two answers
    are booleans that are each other's negation: never both true, never
    both false. *)
Theorem isOk_isErr_complement (r : object) :
  Result r ->
  (isOk r = VBool true <-> tag_success r)
  /\ (isErr r = VBool true <-> tag_failure r)
  /\ exists b : bool, isOk r = VBool b /\ isErr r = VBool (negb b).
Proof.
  intros H. destruct (Result_tag r H) as [T | T].
  - rewrite (isOk_success r T), (isErr_success r T). repeat split; try done.
    + intros F. destruct (tags_exclusive r T F).
    + by exists true.
  - rewrite (isOk_failure r T), (isErr_failure r T). repeat split; try done.
    + intros F. destruct (tags_exclusive r F T).
    + by exists false.
Qed.

Lemma isOk_isErr_complement_witness :
  Result division_by_zero
  /\ isOk division_by_zero <> VBool true
  /\ isErr division_by_zero = VBool true.
Proof.
  assert (R : Result division_by_zero)
    by (by apply (Result_Err _ "Cannot divide by zero")).
  split; [exact R|].
  destruct (isOk_isErr_complement _ R) as (Hok & Herr & _).
  split.
  - intros E. apply Hok in E. vm_compute in E. discriminate E.
  - apply Herr. reflexivity.
Defined.

(** ** Optional extraction *)

(** C8: on every Result, [optionOk] returns the success value when the tag
    is success and [null] otherwise; [optionErr] returns the error message,
    a bare string and nothing of a code, when the tag is failure and [null]
    otherwise; both calls return, neither throws. *)
Theorem option_extractors (r : object) :
  Result r ->
  (tag_success r ->
     optionOk r = Return (get r "value") /\ optionErr r = Return VNull)
  /\ (tag_failure r ->
       optionOk r = Return VNull
       /\ exists m : string, r !! "error" = Some (VStr m) /\ optionErr r = Return (VStr m))
  /\ (exists x, optionOk r = Return x)
  /\ (exists y, optionErr r = Return y).
Proof.
  intros H. unfold optionOk, optionErr. repeat split; eauto.
  - by rewrite isOk_success.
  - by rewrite isErr_success.
  - by rewrite isOk_failure.
  - rename H0 into T. destruct H as [r v S _ | r m _ E].
    + destruct (tags_exclusive r S T).
    + exists m. split; [done|]. rewrite isErr_failure by done.
      by rewrite (get_lookup _ _ _ E).
Qed.

Lemma option_extractors_witness :
  Result division_by_zero
  /\ optionOk division_by_zero = Return VNull
  /\ optionErr division_by_zero = Return (VStr "Cannot divide by zero").
Proof.
  assert (R : Result division_by_zero)
    by (by apply (Result_Err _ "Cannot divide by zero")).
  split; [exact R|].
  destruct (option_extractors _ R) as (_ & F & _).
  destruct (F eq_refl) as (Hok & m & E & Herr).
  split; [exact Hok|].
  rewrite Herr. vm_compute in E. congruence.
Defined.

(** C10: [optionOk(Ok(null))] is [null], and so is [optionOk] of every
    failure-tagged result: the two calls have the same outcome, so the
    caller of [optionOk] cannot tell a success that carries [null] from a
    failure. *)
Theorem optionOk_null_success_like_failure (r : object) :
  tag_failure r ->
  optionOk (Ok VNull) = Return VNull
  /\ optionOk r = Return VNull
  /\ optionOk (Ok VNull) = optionOk r.
Proof.
  intros T. unfold optionOk. rewrite (isOk_failure r T). by repeat split.
Qed.

Lemma optionOk_null_success_like_failure_witness :
  tag_failure (Err "Invalid")
  /\ optionOk (Ok VNull) = optionOk (Err "Invalid").
Proof.
  split; [reflexivity|].
  apply (optionOk_null_success_like_failure (Err "Invalid")). reflexivity.
Defined.

(** ** Synchronous unwrap *)

(** C2: [unwrap(Ok(v))] returns [v]; on a failure-tagged result with
    message [m], [unwrap] throws an Error whose message is [m], and the
    thrown object has no [code], whatever the result carried besides
    [ok] and [error]. *)
Theorem unwrap_returns_or_throws_message (v : value) (r : object) (m : string) :
  tag_failure r -> r !! "error" = Some (VStr m) ->
  unwrap (Ok v) = Return v
  /\ unwrap (Err m) = Throw (VObj {[ "message" := VStr m ]})
  /\ exists e : object,
       unwrap r = Throw (VObj e)
       /\ get e "message" = VStr m
       /\ e !! "code" = None.
Proof.
  intros T E. split; [reflexivity|]. split; [reflexivity|].
  exists {[ "message" := VStr m ]}. split; [by apply unwrap_failure|].
  by split.
Qed.

Lemma unwrap_returns_or_throws_message_witness :
  get division_by_zero "code" = VStr "DIVISION_BY_ZERO"
  /\ unwrap (Ok (VNum 5)) = Return (VNum 5)
  /\ exists e : object,
       unwrap division_by_zero = Throw (VObj e)
       /\ get e "message" = VStr "Cannot divide by zero"
       /\ e !! "code" = None.
Proof.
  split; [reflexivity|].
  assert (T : tag_failure division_by_zero) by reflexivity.
  assert (E : division_by_zero !! "error" = Some (VStr "Cannot divide by zero"))
    by reflexivity.
  destruct (unwrap_returns_or_throws_message (VNum 5) _ _ T E) as (Hv & _ & He).
  split; [exact Hv | exact He].
Defined.

(** C6: [unwrapOrDefault(Ok(v), d)] returns [v], [unwrapOrDefault(Err(m), d)]
    returns [d], and on every object whatsoever the call returns rather
    than throws. *)
Theorem unwrapOrDefault_value_or_default (v d : value) (m : string) :
  unwrapOrDefault (Ok v) d = Return v
  /\ unwrapOrDefault (Err m) d = Return d
  /\ forall r : object, exists x : value, unwrapOrDefault r d = Return x.
Proof.
  split; [reflexivity|]. split; [reflexivity|].
  intros r. unfold unwrapOrDefault. destruct (truthy (isOk r)); eauto.
Qed.

(** ** Asynchronous unwrap *)

(** [const value = unwrap(result); return value;] completes as
    [unwrap(result)] does. *)
Lemma bind_Return {A} (c : completion A) : bind c Return = c.
Proof. by destruct c. Qed.

(** Only a thenable is adopted. *)
Lemma resolve_plain (v : value) : thenable v = false -> resolve v = Fulfilled v.
Proof. by destruct v. Qed.

Section AsyncProperties.

Context {World : Type}.
Implicit Types (fn : source World) (w : World) (p : promise object).

(** Both functions evaluate the operand of their [await] alike: what the
    source yields is awaited, in the world the source leaves. *)
Lemma unwrapPromise_yields fn w p w' :
  yields fn w p w' ->
  unwrapPromise fn w =
    (await p (fun result => Finish (bind (unwrap result) Return)), w').
Proof.
  destruct fn as [f | q]; simpl; unfold unwrapPromise.
  - by intros ->.
  - by intros [-> ->].
Qed.

Lemma unwrapPromiseOrDefault_yields fn (d : value) w p w' :
  yields fn w p w' ->
  unwrapPromiseOrDefault fn d w =
    (await p (fun result => Finish (unwrapOrDefault result d)), w').
Proof.
  destruct fn as [f | q]; simpl; unfold unwrapPromiseOrDefault.
  - by intros ->.
  - by intros [-> ->].
Qed.

(** A function that throws before it has a promise to return: inside the
    async body this is a throw like any other, and rejects. *)
Lemma unwrapPromise_thunk_throws (f : thunk World) w w' (e : value) :
  f w = (Throw e, w') ->
  settle (fst (unwrapPromise (Function f) w)) = Rejected e.
Proof. intros H. unfold unwrapPromise. by rewrite H. Qed.

(** C3, amended: a promise fulfilled with [r], given to [unwrapPromise],
    settles as the promise resolved with what [unwrap r] completes with:
    rejected with an Error that has the message of [r] and nothing else
    when [r] is a failure; resolved with the success value when [r] is a
    success, which is to say fulfilled with it unless that value is a
    thenable, and then adopted.  Given instead a function that returns
    that promise, [unwrapPromise] has called it once by the time the call
    returns (the world is the one a single call leaves), and from there on
    it is the same suspended body, with the same outcome, as for the
    promise passed directly, which calls nothing. *)
Theorem unwrapPromise_awaits_then_unwraps (f : thunk World) w w' p :
  f w = (Return p, w') ->
  snd (unwrapPromise (Function f) w) = w'
  /\ snd (unwrapPromise (Promise p) w) = w
  /\ fst (unwrapPromise (Function f) w) = fst (unwrapPromise (Promise p) w)
  /\ forall r : object, p = Fulfilled r ->
       settle (fst (unwrapPromise (Promise p) w)) = promise_of (unwrap r)
       /\ settle (fst (unwrapPromise (Function f) w)) = promise_of (unwrap r)
       /\ (tag_success r -> promise_of (unwrap r) = resolve (get r "value"))
       /\ (tag_success r -> thenable (get r "value") = false ->
             promise_of (unwrap r) = Fulfilled (get r "value"))
       /\ (forall m : string, tag_failure r -> r !! "error" = Some (VStr m) ->
             promise_of (unwrap r) = Rejected (VObj {[ "message" := VStr m ]})).
Proof.
  intros H.
  rewrite (unwrapPromise_yields (Function f) w p w' H).
  rewrite (unwrapPromise_yields (Promise p) w p w (conj eq_refl eq_refl)).
  simpl. split; [reflexivity|]. split; [reflexivity|]. split; [reflexivity|].
  intros r ->. simpl. rewrite bind_Return.
  split; [reflexivity|]. split; [reflexivity|]. split; [|split].
  - intros T. by rewrite unwrap_success.
  - intros T N. rewrite unwrap_success by done. by apply resolve_plain.
  - intros m T E. by rewrite (unwrap_failure r m).
Qed.

(** C4: when what the source yields is a promise that rejects, the promise
    of [unwrapPromise] and the promise of [unwrapPromiseOrDefault] reject
    with that very reason; the default is not used. *)
Theorem rejection_passes_through fn w w' (reason d : value) :
  yields fn w (Rejected reason) w' ->
  settle (fst (unwrapPromise fn w)) = Rejected reason
  /\ settle (fst (unwrapPromiseOrDefault fn d w)) = Rejected reason.
Proof.
  intros H.
  rewrite (unwrapPromise_yields _ _ _ _ H).
  by rewrite (unwrapPromiseOrDefault_yields _ d _ _ _ H).
Qed.

(** C7, amended: for either shape of source, once the awaited promise is
    fulfilled with [r], the promise of [unwrapPromiseOrDefault] is
    resolved with the success value when [r] is success-tagged and with
    the default when [r] is failure-tagged; resolved with a value that is
    not a thenable, it is fulfilled with it.  A function source has been
    called once. *)
Theorem unwrapPromiseOrDefault_value_or_default fn w w' (r : object) (d : value) :
  yields fn w (Fulfilled r) w' ->
  (tag_success r ->
     settle (fst (unwrapPromiseOrDefault fn d w)) = resolve (get r "value"))
  /\ (tag_failure r ->
       settle (fst (unwrapPromiseOrDefault fn d w)) = resolve d)
  /\ (tag_success r -> thenable (get r "value") = false ->
       settle (fst (unwrapPromiseOrDefault fn d w)) = Fulfilled (get r "value"))
  /\ (tag_failure r -> thenable d = false ->
       settle (fst (unwrapPromiseOrDefault fn d w)) = Fulfilled d)
  /\ snd (unwrapPromiseOrDefault fn d w) = w'.
Proof.
  intros H. rewrite (unwrapPromiseOrDefault_yields _ d _ _ _ H). simpl.
  split; [|split; [|split; [|split]]].
  - intros T. by rewrite unwrapOrDefault_success.
  - intros T. by rewrite unwrapOrDefault_failure.
  - intros T N. rewrite unwrapOrDefault_success by done. by apply resolve_plain.
  - intros T N. rewrite unwrapOrDefault_failure by done. by apply resolve_plain.
  - reflexivity.
Qed.

End AsyncProperties.

Lemma unwrapPromise_awaits_then_unwraps_witness :
  let f := counting (Fulfilled (Ok (VNum 42))) in
  snd (unwrapPromise (Function f) 0) = 1
  /\ settle (fst (unwrapPromise (Function f) 0)) = Fulfilled (VNum 42)
  /\ settle (fst (unwrapPromise (Promise (Fulfilled (Ok (VNum 42)))) 0))
     = Fulfilled (VNum 42).
Proof.
  cbv zeta.
  destruct (unwrapPromise_awaits_then_unwraps
              (counting (Fulfilled (Ok (VNum 42)))) 0 1
              (Fulfilled (Ok (VNum 42))) eq_refl) as (Hw & _ & _ & Hr).
  destruct (Hr (Ok (VNum 42)) eq_refl) as (Hp & Hf & _ & Hv & _).
  split; [exact Hw|].
  rewrite Hf, Hp. split; exact (Hv eq_refl eq_refl).
Defined.

(** C3 as first stated fails on a success whose value is a promise that
    rejects: [unwrap(Ok(Promise.reject("boom")))] returns that promise and
    raises nothing, yet the promise of
    [unwrapPromise(Promise.resolve(Ok(Promise.reject("boom"))))] is
    rejected with ["boom"], not fulfilled with the success value. *)
Lemma unwrapPromise_rejects_on_rejecting_value :
  Result (Ok (Promise_reject (VStr "boom")))
  /\ tag_success (Ok (Promise_reject (VStr "boom")))
  /\ unwrap (Ok (Promise_reject (VStr "boom")))
     = Return (Promise_reject (VStr "boom"))
  /\ settle (fst (unwrapPromise
                    (Promise (Fulfilled (Ok (Promise_reject (VStr "boom"))))) tt))
     = Rejected (VStr "boom")
  /\ settle (fst (unwrapPromise
                    (Promise (Fulfilled (Ok (Promise_reject (VStr "boom"))))) tt))
     <> Fulfilled (get (Ok (Promise_reject (VStr "boom"))) "value").
Proof.
  split; [apply Ok_Result|]. split; [apply Ok_tag|].
  split; [reflexivity|]. split; [reflexivity|]. discriminate.
Qed.

Lemma rejection_passes_through_witness :
  let f := counting (Rejected (VStr "connection reset")) in
  settle (fst (unwrapPromise (Function f) 0)) = Rejected (VStr "connection reset")
  /\ settle (fst (unwrapPromiseOrDefault (Function f) (VNum 0) 0))
     = Rejected (VStr "connection reset").
Proof.
  cbv zeta.
  apply (rejection_passes_through
           (Function (counting (Rejected (VStr "connection reset")))) 0 1).
  reflexivity.
Defined.

Lemma unwrapPromiseOrDefault_value_or_default_witness :
  let f := counting (Fulfilled (Err "error")) in
  settle (fst (unwrapPromiseOrDefault (Function f) (VNum 0) 0)) = Fulfilled (VNum 0)
  /\ snd (unwrapPromiseOrDefault (Function f) (VNum 0) 0) = 1.
Proof.
  cbv zeta.
  destruct (unwrapPromiseOrDefault_value_or_default
              (Function (counting (Fulfilled (Err "error")))) 0 1
              (Err "error") (VNum 0) eq_refl) as (_ & _ & _ & Hf & Hw).
  split; [apply Hf; reflexivity | exact Hw].
Defined.

(** C7 as first stated fails on a default that is a promise that rejects:
    the awaited result is a failure, and the promise of
    [unwrapPromiseOrDefault(Promise.resolve(Err("m")), Promise.reject("boom"))]
    is rejected with ["boom"] instead of being fulfilled with the
    default. *)
Lemma unwrapPromiseOrDefault_rejects_on_rejecting_default :
  tag_failure (Err "m")
  /\ settle (fst (unwrapPromiseOrDefault (Promise (Fulfilled (Err "m")))
                    (Promise_reject (VStr "boom")) tt))
     = Rejected (VStr "boom")
  /\ settle (fst (unwrapPromiseOrDefault (Promise (Fulfilled (Err "m")))
                    (Promise_reject (VStr "boom")) tt))
     <> Fulfilled (Promise_reject (VStr "boom")).
Proof.
  split; [apply Err_tag|]. split; [reflexivity|]. discriminate.
Qed.

(** ** The scenarios of the test suite *)

Example unwrap_Ok_42 : unwrap (Ok (VNum 42)) = Return (VNum 42).
Proof. reflexivity. Qed.

Example unwrap_Err_throws :
  unwrap (Err "error") = Throw (VObj {[ "message" := VStr "error" ]}).
Proof. reflexivity. Qed.

Example unwrapOrDefault_Err_0 :
  unwrapOrDefault (Err "error") (VNum 0) = Return (VNum 0).
Proof. reflexivity. Qed.

Example optionErr_Ok_null : optionErr (Ok (VNum 42)) = Return VNull.
Proof. reflexivity. Qed.

Example unwrapPromise_resolved_Ok :
  settle (fst (unwrapPromise (Promise (Fulfilled (Ok (VNum 42)))) tt))
  = Fulfilled (VNum 42).
Proof. reflexivity. Qed.

Example unwrapPromise_resolved_Err :
  settle (fst (unwrapPromise (Promise (Fulfilled (Err "Failed"))) tt))
  = Rejected (VObj {[ "message" := VStr "Failed" ]}).
Proof. reflexivity. Qed.

Example unwrapPromiseOrDefault_async_Err :
  unwrapPromiseOrDefault (Function (counting (Fulfilled (Err "error")))) (VNum 0) 0
  = (await (Fulfilled (Err "error"))
       (fun result => Finish (unwrapOrDefault result (VNum 0))), 1)
  /\ settle (await (Fulfilled (Err "error"))
               (fun result => Finish (unwrapOrDefault result (VNum 0))))
     = Fulfilled (VNum 0).
Proof. split; reflexivity. Qed.

(** A success value that is itself a promise is adopted:
    [await unwrapPromise(Promise.resolve(Ok(Promise.resolve(42))))] is
    [42]. *)
Example unwrapPromise_adopts_resolved_value :
  settle (fst (unwrapPromise
                 (Promise (Fulfilled (Ok (Promise_resolve (VNum 42))))) tt))
  = Fulfilled (VNum 42).
Proof. reflexivity. Qed.

(** A promise that never settles leaves both async unwraps pending. *)
Example unwrapPromise_unsettled :
  settle (fst (unwrapPromise (Promise Unsettled) tt)) = Unsettled
  /\ settle (fst (unwrapPromiseOrDefault (Promise Unsettled) VNull tt)) = Unsettled.
Proof. split; reflexivity. Qed.

(** * Further properties of the code *)

(** ** The constructors as data *)

Lemma Ok_value (v : value) : Ok v !! "value" = Some v.
Proof. reflexivity. Qed.

Lemma Err_error (m : string) : Err m !! "error" = Some (VStr m).
Proof. reflexivity. Qed.

(** X1: [Ok] and [Err] lose nothing and never collide: equal results were
    built from equal payloads, and no success equals a failure. *)
Theorem constructors_injective_and_disjoint (v v' : value) (m m' : string) :
  (Ok v = Ok v' <-> v = v')
  /\ (Err m = Err m' <-> m = m')
  /\ Ok v <> Err m.
Proof.
  split; [|split].
  - split; [|by intros ->].
    intros H. assert (E : Ok v !! "value" = Ok v' !! "value") by (by rewrite H).
    rewrite !Ok_value in E. by injection E.
  - split; [|by intros ->].
    intros H. assert (E : Err m !! "error" = Err m' !! "error") by (by rewrite H).
    rewrite !Err_error in E. by injection E.
  - intros H. assert (E : Ok v !! "ok" = Err m !! "ok") by (by rewrite H).
    discriminate E.
Qed.

(** ** Guards and extractors on arbitrary objects *)

(** [isErr] always answers with a boolean, the negation of the truthiness
    of what [isOk] answers. *)
Lemma isErr_negates_isOk (r : object) : isErr r = VBool (negb (truthy (isOk r))).
Proof. reflexivity. Qed.

(** X2: a guard makes [unwrap] safe on any object, typed or not: [unwrap]
    returns exactly when [isErr] answers [false] (equivalently, when the
    answer of [isOk] is truthy), and throws exactly when [isErr] answers
    [true]. *)
Theorem unwrap_returns_iff_guard_passes (r : object) :
  ((exists v, unwrap r = Return v) <-> isErr r = VBool false)
  /\ ((exists v, unwrap r = Return v) <-> truthy (isOk r) = true)
  /\ ((exists e, unwrap r = Throw e) <-> isErr r = VBool true).
Proof.
  rewrite isErr_negates_isOk. unfold unwrap.
  destruct (truthy (isOk r)); simpl; repeat split;
    try (intros [x E]; discriminate E); try discriminate; eauto.
Qed.

(** X3: the three ways to get at the success value agree on every object.
    [unwrapOrDefault] returns what [unwrap] returns, and the default
    exactly where [unwrap] throws; [optionOk] is [unwrapOrDefault] with
    [null] as the default. *)
Theorem extractors_agree (r : object) (d : value) :
  unwrapOrDefault r d
    = match unwrap r with
      | Return v => Return v
      | Throw _ => Return d
      end
  /\ optionOk r = unwrapOrDefault r VNull.
Proof.
  unfold unwrapOrDefault, unwrap, optionOk.
  by destruct (truthy (isOk r)).
Qed.

(** X4: on a Result, [optionErr] tells the variants apart, [optionOk] does
    so only up to a [null] payload: [optionErr] is [null] exactly on a
    success (an empty message is still a string), while [optionOk] is
    [null] exactly on a failure or on a success whose value is [null]. *)
Theorem option_null_characterised (r : object) :
  Result r ->
  (optionErr r = Return VNull <-> tag_success r)
  /\ (optionOk r = Return VNull <-> tag_failure r \/ r !! "value" = Some VNull).
Proof.
  intros [r0 v S V | r0 m F E]; unfold optionErr, optionOk.
  - rewrite (isErr_success _ S), (isOk_success _ S); simpl.
    rewrite (get_lookup _ _ _ V). split; [done|]. split.
    + intros [= ->]. by right.
    + intros [T | V']; [destruct (tags_exclusive _ S T) | congruence].
  - rewrite (isErr_failure _ F), (isOk_failure _ F); simpl.
    rewrite (get_lookup _ _ _ E). split.
    + split; [discriminate | intros S; destruct (tags_exclusive _ S F)].
    + split; [by left | done].
Qed.

Lemma option_null_characterised_witness :
  Result (Err "")
  /\ optionErr (Err "") <> Return VNull
  /\ optionOk (Err "") = Return VNull.
Proof.
  assert (R : Result (Err "")) by (by apply (Result_Err _ "")).
  split; [exact R|].
  destruct (option_null_characterised _ R) as (He & Ho).
  split.
  - intros N. apply He in N. vm_compute in N. discriminate N.
  - apply Ho. left. reflexivity.
Defined.

(** X5: no consumer looks at anything but [ok], [value] and [error]: two
    objects that agree on these three properties get the same answer from
    both predicates and the same outcome from all four extractors,
    whatever else (a [code], say) one of them carries. *)
Theorem consumers_read_three_fields (r r' : object) (d : value) :
  r !! "ok" = r' !! "ok" ->
  r !! "value" = r' !! "value" ->
  r !! "error" = r' !! "error" ->
  isOk r = isOk r' /\ isErr r = isErr r'
  /\ optionOk r = optionOk r' /\ optionErr r = optionErr r'
  /\ unwrap r = unwrap r' /\ unwrapOrDefault r d = unwrapOrDefault r' d.
Proof.
  intros Hok Hvalue Herror.
  unfold optionOk, optionErr, unwrap, unwrapOrDefault, isErr, isOk, get.
  by rewrite Hok, Hvalue, Herror.
Qed.

Lemma consumers_read_three_fields_witness :
  division_by_zero <> Err "Cannot divide by zero"
  /\ unwrap division_by_zero = unwrap (Err "Cannot divide by zero")
  /\ optionErr division_by_zero = optionErr (Err "Cannot divide by zero").
Proof.
  split.
  - intros H.
    assert (E : division_by_zero !! "code" = Err "Cannot divide by zero" !! "code")
      by (by rewrite H).
    discriminate E.
  - destruct (consumers_read_three_fields division_by_zero
                (Err "Cannot divide by zero") VNull eq_refl eq_refl eq_refl)
      as (_ & _ & _ & He & Hu & _).
    split; [exact Hu | exact He].
Defined.

(** X14: the tag alone decides, also when the payload is missing: on a
    success-tagged object without a [value] property, [unwrap],
    [unwrapOrDefault] and [optionOk] all return [undefined]; the default
    and the [null] sentinel are not used and nothing is thrown. *)
Theorem missing_value_reads_undefined (r : object) (d : value) :
  tag_success r -> r !! "value" = None ->
  unwrap r = Return VUndefined
  /\ unwrapOrDefault r d = Return VUndefined
  /\ optionOk r = Return VUndefined.
Proof.
  intros T V.
  assert (G : get r "value" = VUndefined) by (unfold get; by rewrite V).
  rewrite (unwrap_success r T), (unwrapOrDefault_success r d T), G.
  unfold optionOk. by rewrite (isOk_success r T), G.
Qed.

Lemma missing_value_reads_undefined_witness :
  unwrapOrDefault bare_success (VNum 0) = Return VUndefined
  /\ optionOk bare_success = Return VUndefined.
Proof.
  destruct (missing_value_reads_undefined bare_success (VNum 0) eq_refl eq_refl)
    as (_ & Hd & Ho).
  split; [exact Hd | exact Ho].
Defined.

(** X15: on a failure-tagged object without an [error] property,
    [optionErr] returns [undefined], which is neither a message nor the
    [null] sentinel. *)
Theorem missing_error_reads_undefined (r : object) :
  tag_failure r -> r !! "error" = None ->
  optionErr r = Return VUndefined /\ optionErr r <> Return VNull.
Proof.
  intros T E. unfold optionErr. rewrite (isErr_failure r T). simpl.
  unfold get. by rewrite E.
Qed.

Lemma missing_error_reads_undefined_witness :
  optionErr bare_failure = Return VUndefined.
Proof.
  apply (missing_error_reads_undefined bare_failure); reflexivity.
Defined.

(** ** The async functions on every source *)

Section AsyncFurther.

Context {World : Type}.
Implicit Types (fn : source World) (f : thunk World) (w : World)
  (p : promise object) (d e : value).

(** X6: a function source is called once whatever the call does, return
    a promise or throw, and by both async functions alike; a promise
    source leaves the world as it was. *)
Theorem source_called_once f p w d :
  snd (unwrapPromise (Function f) w) = snd (f w)
  /\ snd (unwrapPromiseOrDefault (Function f) d w) = snd (f w)
  /\ snd (unwrapPromise (Promise p) w) = w
  /\ snd (unwrapPromiseOrDefault (Promise p) d w) = w.
Proof.
  unfold unwrapPromise, unwrapPromiseOrDefault.
  destruct (f w) as [operand w']. by repeat split.
Qed.

(** X7: a function source that throws instead of returning a promise does
    not make the call throw: [fn()] is evaluated inside the async body, so
    both functions hand back a promise rejected with the thrown value, and
    the default is not used. *)
Theorem thrown_by_source_becomes_rejection f w w' e d :
  f w = (Throw e, w') ->
  settle (fst (unwrapPromise (Function f) w)) = Rejected e
  /\ settle (fst (unwrapPromiseOrDefault (Function f) d w)) = Rejected e.
Proof.
  intros H. unfold unwrapPromise, unwrapPromiseOrDefault. by rewrite H.
Qed.

(** What the two promises are once the awaited promise is fulfilled. *)
Lemma unwrapPromise_fulfilled fn w w' (r : object) :
  yields fn w (Fulfilled r) w' ->
  settle (fst (unwrapPromise fn w)) = promise_of (unwrap r).
Proof.
  intros H. rewrite (unwrapPromise_yields _ _ _ _ H). simpl.
  by rewrite bind_Return.
Qed.

Lemma unwrapPromiseOrDefault_fulfilled fn w w' (r : object) d :
  yields fn w (Fulfilled r) w' ->
  settle (fst (unwrapPromiseOrDefault fn d w))
  = resolve (if truthy (isOk r) then get r "value" else d).
Proof.
  intros H. rewrite (unwrapPromiseOrDefault_yields _ d _ _ _ H). simpl.
  unfold unwrapOrDefault. by destruct (truthy (isOk r)).
Qed.

(** X8: when the two promises stay pending for ever: exactly when the
    awaited promise never settles, or it is fulfilled and the value the
    body then returns (the success value; for [unwrapPromiseOrDefault]
    also the default, on a failure) is a thenable that never settles. *)
Theorem pending_origin fn w w' p d :
  yields fn w p w' ->
  (settle (fst (unwrapPromise fn w)) = Unsettled
   <-> p = Unsettled
       \/ exists r : object,
            p = Fulfilled r /\ truthy (isOk r) = true
            /\ resolve (get r "value") = Unsettled)
  /\ (settle (fst (unwrapPromiseOrDefault fn d w)) = Unsettled
      <-> p = Unsettled
          \/ exists r : object,
               p = Fulfilled r
               /\ resolve (if truthy (isOk r) then get r "value" else d) = Unsettled).
Proof.
  intros H. destruct p as [r | reason |].
  - rewrite (unwrapPromise_fulfilled _ _ _ _ H).
    rewrite (unwrapPromiseOrDefault_fulfilled _ _ _ _ d H).
    unfold unwrap. split; split.
    + destruct (truthy (isOk r)) eqn:T; [|discriminate].
      intros E. right. by exists r.
    + intros [[=] | (r' & [= <-] & T & E)]. by rewrite T.
    + intros E. right. by exists r.
    + by intros [[=] | (r' & [= <-] & E)].
  - rewrite (unwrapPromise_yields _ _ _ _ H).
    rewrite (unwrapPromiseOrDefault_yields _ d _ _ _ H). simpl.
    split; (split; [discriminate|]).
    + by intros [[=] | (r' & [=] & _)].
    + by intros [[=] | (r' & [=] & _)].
  - rewrite (unwrapPromise_yields _ _ _ _ H).
    rewrite (unwrapPromiseOrDefault_yields _ d _ _ _ H). simpl.
    split; (split; [by left | done]).
Qed.



(** X11: the default only ever replaces a failure: whenever the promise of
    [unwrapPromise] is fulfilled with [v], the promise of
    [unwrapPromiseOrDefault] for the same source is fulfilled with the
    same [v], whatever the default. *)
Theorem default_unused_on_fulfilment fn w d (v : value) :
  settle (fst (unwrapPromise fn w)) = Fulfilled v ->
  settle (fst (unwrapPromiseOrDefault fn d w)) = Fulfilled v.
Proof.
  unfold unwrapPromise, unwrapPromiseOrDefault.
  destruct fn as [f | p]; [destruct (f w) as [[p | e] w'] |]; simpl;
    try discriminate;
    (destruct p as [r | reason |]; simpl; [| done | done];
     rewrite bind_Return; unfold unwrap, unwrapOrDefault;
     by destruct (truthy (isOk r))).
Qed.

(** X12: [fetchUser] under [unwrapPromiseOrDefault], for every id and
    every default: for the id ["1"] the promise is fulfilled with the user
    John, whatever the default; for any other id it is resolved with the
    default, hence fulfilled with it unless the default is a thenable. *)
Theorem fetchUser_or_default (id : string) d w :
  settle (fst (unwrapPromiseOrDefault (Promise (settle (fetchUser id))) d w))
  = (if String.eqb id "1" then Fulfilled (VObj john) else resolve d).
Proof.
  unfold fetchUser. by destruct (String.eqb id "1").
Qed.

End AsyncFurther.

(** X13: for every id other than ["1"], [fetchUser] resolves to a failure
    with the message ["User not found"], and reading [.code] on it yields
    [undefined]: the second argument given to [Err] is not in the
    result. *)
Theorem fetchUser_unknown_id (id : string) :
  id <> "1" ->
  exists r : object,
    settle (fetchUser id) = Fulfilled r
    /\ isErr r = VBool true
    /\ get r "error" = VStr "User not found"
    /\ get r "code" = VUndefined.
Proof.
  intros N. unfold fetchUser.
  destruct (String.eqb_spec id "1") as [E | _]; [by destruct N|].
  by exists (Err "User not found").
Qed.

Lemma thrown_by_source_becomes_rejection_witness :
  settle (fst (unwrapPromiseOrDefault (Function (failing (VStr "offline"))) (VNum 0) 0))
  = Rejected (VStr "offline").
Proof.
  apply (thrown_by_source_becomes_rejection
           (failing (VStr "offline")) 0 1 (VStr "offline") (VNum 0)).
  reflexivity.
Defined.

Lemma pending_origin_witness :
  settle (fst (unwrapPromise (Function (counting Unsettled)) 0)) = Unsettled
  /\ settle (fst (unwrapPromise (Promise (Fulfilled (Ok Promise_pending))) tt))
     = Unsettled.
Proof.
  split.
  - apply (pending_origin (Function (counting Unsettled)) 0 1 Unsettled VNull eq_refl).
    by left.
  - apply (pending_origin (Promise (Fulfilled (Ok Promise_pending))) tt tt
             (Fulfilled (Ok Promise_pending)) VNull (conj eq_refl eq_refl)).
    right. exists (Ok Promise_pending). by repeat split.
Defined.



Lemma default_unused_on_fulfilment_witness :
  settle (fst (unwrapPromiseOrDefault
                 (Function (counting (Fulfilled (Ok (VNum 42))))) (VNum 0) 0))
  = Fulfilled (VNum 42).
Proof.
  apply (default_unused_on_fulfilment
           (Function (counting (Fulfilled (Ok (VNum 42))))) 0 (VNum 0) (VNum 42)).
  reflexivity.
Defined.

Lemma fetchUser_unknown_id_witness :
  exists r : object,
    settle (fetchUser "999") = Fulfilled r
    /\ isErr r = VBool true
    /\ get r "error" = VStr "User not found"
    /\ get r "code" = VUndefined.
Proof.
  apply (fetchUser_unknown_id "999"). discriminate.
Defined.
